(** * fluent_contents.extensions.pluginbase

    A shallow embedding of [ContentPlugin], the base class of the content
    plugins of django-fluent-contents, and the properties of its output
    cache keys, its cache accessors, its render entry point, its error
    block and its memoised content-type id.

    Python strings are [string]s, integers are [Z], dicts are [gmap]s and
    lists are [list]s.  A method is a computation over the ambient state of
    the process (settings, database tables, cache backend, translation
    catalogue) that either returns a value or raises.

    The code is Python 2: a [str] is a string of bytes and is held as it
    is, a [unicode] string that the code builds or returns is held by its
    UTF-8 encoding.  The replacements and splits below act on ASCII
    characters, whose bytes occur in a UTF-8 encoding nowhere else, so
    they are the same on the encoding as on the code points. *)

From Stdlib Require Import ZArith Ascii String.
From stdpp Require Import base option list gmap strings pretty.

#[local] Arguments String.append !_ _ / : simpl nomatch.

Local Open Scope string_scope.
Local Open Scope list_scope.
Local Open Scope Z_scope.

(** ** Characters that cannot be written inside a literal *)

Definition LF : ascii := "010"%char.
Definition CR : ascii := "013"%char.
Definition DQUOTE : ascii := ascii_of_nat 34.
#[local] Arguments LF : simpl never.
#[local] Arguments CR : simpl never.
#[local] Arguments DQUOTE : simpl never.

(** ** The string operations of Python the module relies on *)

(** [s.replace(old, new)] for a one-character [old]. *)
Fixpoint replace (old : ascii) (new : string) (s : string) : string :=
  match s with
  | EmptyString => EmptyString
  | String c rest =>
      if Ascii.eqb c old then new +:+ replace old new rest
      else String c (replace old new rest)
  end.

(** [sep.join(parts)]. *)
Fixpoint join (sep : string) (parts : list string) : string :=
  match parts with
  | [] => ""
  | [p] => p
  | p :: ps => p +:+ sep +:+ join sep ps
  end.

(** ** django.utils.text and django.utils.html *)

(** [re.sub(r'\r\n|\r|\n', '\n', text)]. *)
Fixpoint normalize_newlines (text : string) : string :=
  match text with
  | EmptyString => EmptyString
  | String c rest =>
      if Ascii.eqb c CR then
        match rest with
        | String c' rest' =>
            if Ascii.eqb c' LF then String LF (normalize_newlines rest')
            else String LF (normalize_newlines rest)
        | EmptyString => String LF EmptyString
        end
      else String c (normalize_newlines rest)
  end.

(** Put a character in front of the first piece of a split. *)
Definition cons_head (c : ascii) (parts : list string) : list string :=
  match parts with
  | [] => [String c ""]
  | p :: ps => String c p :: ps
  end.

(** [re.split('\n{2,}', value)]: [in_run] tells that the characters just
    before [value] were a separator (two newlines or more), which extends
    over every newline that follows. *)
Fixpoint split_paras_go (in_run : bool) (value : string) : list string :=
  match value with
  | EmptyString => [""]
  | String c rest =>
      if Ascii.eqb c LF then
        if in_run then split_paras_go true rest
        else
          match rest with
          | String c' _ =>
              if Ascii.eqb c' LF then "" :: split_paras_go true rest
              else cons_head LF (split_paras_go false rest)
          | EmptyString => cons_head LF (split_paras_go false rest)
          end
      else cons_head c (split_paras_go false rest)
  end.

Definition split_paras (value : string) : list string :=
  split_paras_go false value.

(** The replacements of [django.utils.html.escape] on the unicode string
    it has made of its argument: five, the ampersand first. *)
Definition escape_unicode (html : string) : string :=
  replace "'" "&#39;"
    (replace DQUOTE "&quot;"
      (replace ">" "&gt;"
        (replace "<" "&lt;"
          (replace "&" "&amp;" html)))).

(** [django.utils.html.linebreaks] with its default [autoescape=False]. *)
Definition linebreaks (value : string) : string :=
  let value := normalize_newlines value in
  let paras := split_paras value in
  let paras := map (fun p => "<p>" +:+ replace LF "<br />" p +:+ "</p>") paras in
  join (String LF (String LF "")) paras.

(** [c in s] for a character [c]. *)
Fixpoint occurs (c : ascii) (s : string) : bool :=
  match s with
  | EmptyString => false
  | String c' rest => Ascii.eqb c' c || occurs c rest
  end.

(** Every ["<"] of [s] opens one of the three tags [linebreaks] writes. *)
Fixpoint only_linebreaks_tags (s : string) : bool :=
  match s with
  | EmptyString => true
  | String c rest =>
      (if Ascii.eqb c "<"
       then String.prefix "p>" rest || String.prefix "/p>" rest
            || String.prefix "br />" rest
       else true)
      && only_linebreaks_tags rest
  end.

(** The byte strings that the strict UTF-8 decoder of Python 2.7 accepts:
    [need] continuation bytes are still due, the next of them between [lo]
    and [hi].  Overlong forms, lead bytes C0, C1 and F5 to FF and code
    points above U+10FFFF are refused; the encodings of surrogates are
    accepted, as that decoder does. *)
Fixpoint utf8_valid_go (need : nat) (lo hi : N) (s : string) : bool :=
  match s with
  | EmptyString => Nat.eqb need 0
  | String c rest =>
      let b := N_of_ascii c in
      match need with
      | O =>
          if (b <? 128)%N then utf8_valid_go 0 128 191 rest
          else if (194 <=? b)%N && (b <=? 223)%N then utf8_valid_go 1 128 191 rest
          else if (b =? 224)%N then utf8_valid_go 2 160 191 rest
          else if (225 <=? b)%N && (b <=? 239)%N then utf8_valid_go 2 128 191 rest
          else if (b =? 240)%N then utf8_valid_go 3 144 191 rest
          else if (241 <=? b)%N && (b <=? 243)%N then utf8_valid_go 3 128 191 rest
          else if (b =? 244)%N then utf8_valid_go 3 128 143 rest
          else false
      | S n => (lo <=? b)%N && (b <=? hi)%N && utf8_valid_go n 128 191 rest
      end
  end.

Definition utf8_valid (s : string) : bool := utf8_valid_go 0 128 191 s.

(** ** Exceptions and results *)

(** The argument of an exception: a byte string ([Exception('...')]) or a
    unicode string ([Exception(u'...')]), the latter by its code points. *)
Inductive Message : Type :=
  | Bytes (b : string)
  | Unicode (u : list N).

(** An exception: the name of its class, the names of the classes that
    class derives from, and its argument. *)
Record Exception : Type := {
  exc_class : string;
  exc_bases : list string;
  exc_message : Message;
}.

(** [isinstance(e, cls)]: the class of [e] is [cls] or derives from it. *)
Definition isinstance (e : Exception) (cls : string) : bool :=
  bool_decide (exc_class e = cls \/ cls ∈ exc_bases e).

(** [django.db.DatabaseError(msg)]. *)
Definition DatabaseError (msg : string) : Exception :=
  {| exc_class := "DatabaseError";
     exc_bases := ["Exception"; "BaseException"];
     exc_message := Bytes msg |}.

(** The errors of the codecs; [text] is what [str()] gives for them. *)
Definition UnicodeEncodeError (text : string) : Exception :=
  {| exc_class := "UnicodeEncodeError";
     exc_bases := ["UnicodeError"; "ValueError"; "StandardError"; "Exception";
                   "BaseException"];
     exc_message := Bytes text |}.

Definition DjangoUnicodeDecodeError (text : string) : Exception :=
  {| exc_class := "DjangoUnicodeDecodeError";
     exc_bases := ["UnicodeDecodeError"; "UnicodeError"; "ValueError";
                   "StandardError"; "Exception"; "BaseException"];
     exc_message := Bytes text |}.

(** The code points below 128, and the bytes of a string of such. *)
Definition is_ascii (u : list N) : bool := forallb (fun c => (c <? 128)%N) u.

Definition ascii_bytes (u : list N) : string :=
  string_of_list_ascii (map ascii_of_N u).

Inductive Res (A : Type) : Type :=
  | Ok (a : A)
  | Raise (e : Exception).
Arguments Ok {A} a.
Arguments Raise {A} e.

Section ContentPlugin.

(** The model classes, the content item instances and the requests belong
    to the host application; the module never looks inside them. *)
Context {Model Instance Request : Type}.

(** Values a template context can hold. *)
Inductive PyValue : Type :=
  | PyNone
  | PyBool (b : bool)
  | PyInt (z : Z)
  | PyStr (s : string)
  | PyInstance (i : Instance)
  | PyRequest (r : Request).

(** A [django.template.context.Context]: a stack of dicts, the last pushed
    last. *)
Definition Context : Type := list (gmap string PyValue).

Record ContentType : Type := { id : Z }.

(** One call of [django.template.loader.render_to_string]. *)
Record TemplateCall : Type := {
  call_template : string;
  call_dictionary : gmap string PyValue;
  call_context_instance : Context;
}.

(** The state around the plugin: the settings, the [Site] table, the cache
    backend, the active translation catalogue, the answer of the content
    type manager for each model class, the template engine, the calls
    made to the template loader so far, and the text Python and Django
    give the error of the ASCII encoder for a unicode string and the error
    of the UTF-8 decoder for a byte string. *)
Record World : Type := {
  settings_SITE_ID : Z;
  settings_DEBUG : bool;
  Site_pks : list Z;
  cache : gmap string string;
  catalogue : string -> string;
  contenttypes : option Model -> Res ContentType;
  template_engine : string -> gmap string PyValue -> Context -> Res string;
  template_calls : list TemplateCall;
  encode_error_text : list N -> string;
  decode_error_text : string -> string;
}.

(** *** Computations that read and write the world, or raise *)

Definition M (A : Type) : Type := World -> Res A * World.

Definition ret {A} (a : A) : M A := fun w => (Ok a, w).
Definition raise {A} (e : Exception) : M A := fun w => (Raise e, w).
Definition bind {A B} (c : M A) (k : A -> M B) : M B :=
  fun w =>
    match c w with
    | (Ok a, w') => k a w'
    | (Raise e, w') => (Raise e, w')
    end.
(** [try: c  except DatabaseError as e: h e]. *)
Definition try_except_DatabaseError {A} (c : M A) (h : Exception -> M A) : M A :=
  fun w =>
    match c w with
    | (Raise e, w') =>
        if isinstance e "DatabaseError" then h e w' else (Raise e, w')
    | r => r
    end.

Notation "x <- c ;; k" := (bind c (fun x => k))
  (at level 100, c at next level, right associativity).

(** *** The collaborators *)

(** [settings.SITE_ID] and [settings.DEBUG]. *)
Definition get_SITE_ID : M Z := fun w => (Ok (settings_SITE_ID w), w).
Definition get_DEBUG : M bool := fun w => (Ok (settings_DEBUG w), w).

(** [list(Site.objects.values_list('pk', flat=True))]. *)
Definition Site_objects_values_list_pk : M (list Z) :=
  fun w => (Ok (Site_pks w), w).

(** [cache.get(key)] and [cache.set(key, value)]. *)
Definition cache_get (key : string) : M (option string) :=
  fun w => (Ok (cache w !! key), w).

Definition set_cache (c : gmap string string) (w : World) : World :=
  {| settings_SITE_ID := settings_SITE_ID w;
     settings_DEBUG := settings_DEBUG w;
     Site_pks := Site_pks w;
     cache := c;
     catalogue := catalogue w;
     contenttypes := contenttypes w;
     template_engine := template_engine w;
     template_calls := template_calls w;
     encode_error_text := encode_error_text w;
     decode_error_text := decode_error_text w |}.

Definition cache_set (key value : string) : M unit :=
  fun w => (Ok tt, set_cache (<[key := value]> (cache w)) w).

(** [ugettext(message)]. *)
Definition ugettext (message : string) : M string :=
  fun w => (Ok (catalogue w message), w).

(** [str(e)]: the argument when it is a byte string; a unicode argument
    is encoded with the ASCII codec, which raises [UnicodeEncodeError]
    when a code point is not below 128. *)
Definition str (e : Exception) : M string :=
  match exc_message e with
  | Bytes b => ret b
  | Unicode u =>
      if is_ascii u then ret (ascii_bytes u)
      else fun w => (Raise (UnicodeEncodeError (encode_error_text w u)), w)
  end.

(** [django.utils.html.escape] of a byte string: [force_unicode] decodes
    it as UTF-8, which raises [DjangoUnicodeDecodeError] when the bytes are
    not UTF-8; then come the replacements. *)
Definition escape (html : string) : M string :=
  if utf8_valid html then ret (escape_unicode html)
  else fun w => (Raise (DjangoUnicodeDecodeError (decode_error_text w html)), w).

(** [ContentType.objects.get_for_model(model)]. *)
Definition ContentType_objects_get_for_model (model : option Model) : M ContentType :=
  fun w => (contenttypes w model, w).

(** [django.template.loader.render_to_string(template, dictionary,
    context_instance=...)]. *)
Definition log_template_call (c : TemplateCall) (w : World) : World :=
  {| settings_SITE_ID := settings_SITE_ID w;
     settings_DEBUG := settings_DEBUG w;
     Site_pks := Site_pks w;
     cache := cache w;
     catalogue := catalogue w;
     contenttypes := contenttypes w;
     template_engine := template_engine w;
     template_calls := template_calls w ++ [c];
     encode_error_text := encode_error_text w;
     decode_error_text := decode_error_text w |}.

Definition loader_render_to_string (template : string)
    (dictionary : gmap string PyValue) (context_instance : Context) : M string :=
  fun w =>
    (template_engine w template dictionary context_instance,
     log_template_call
       {| call_template := template;
          call_dictionary := dictionary;
          call_context_instance := context_instance |} w).

(** [fluent_contents.cache.get_rendering_cache_key], which lives in
    another module of the package: a function of the placeholder name and
    the content item. *)
Variable get_rendering_cache_key : string -> Instance -> string.

(** The context processors of Django listed in
    [_STANDARD_REQUEST_CONTEXT_PROCESSORS], in their order. *)
Variable django_context_processors : list (Request -> M (gmap string PyValue)).

(** *** The module *)

Definition _add_debug (request : Request) : M (gmap string PyValue) :=
  debug <- get_DEBUG ;;
  ret {[ "debug" := PyBool debug ]}.

Definition _STANDARD_REQUEST_CONTEXT_PROCESSORS
    : list (Request -> M (gmap string PyValue)) :=
  django_context_processors ++ [_add_debug].

(** [Context.update(d)] pushes [d]. *)
Definition Context_update (self : Context) (d : gmap string PyValue) : Context :=
  self ++ [d].

(** The loop of [PluginContext.__init__]: the result of every processor
    is pushed in turn. *)
Fixpoint PluginContext_update_all
    (processors : list (Request -> M (gmap string PyValue)))
    (request : Request) (self : Context) : M Context :=
  match processors with
  | [] => ret self
  | processor :: rest =>
      d <- processor request ;;
      PluginContext_update_all rest request (Context_update self d)
  end.

(** [Context.__init__(dict)]: the stack starts with the dict of the
    builtins, and [dict] is pushed on it when one is given. *)
Definition Context_builtins : gmap string PyValue :=
  <[ "True" := PyBool true ]>
    (<[ "False" := PyBool false ]> {[ "None" := PyNone ]}).

Definition Context___init__ (dict : option (gmap string PyValue)) : Context :=
  match dict with
  | Some d => [Context_builtins; d]
  | None => [Context_builtins]
  end.

(** [PluginContext(request, dict)]: [Context.__init__], then the loop. *)
Definition PluginContext (request : Request) (dict : option (gmap string PyValue))
    : M Context :=
  PluginContext_update_all _STANDARD_REQUEST_CONTEXT_PROCESSORS request
    (Context___init__ dict).

(** The attributes of a plugin object the methods read or write. *)
Record ContentPlugin : Type := {
  class_name : string;
  model : option Model;
  render_template : option string;
  cache_output : bool;
  cache_output_per_site : bool;
  _type_id : option Z;
}.

Definition set__type_id (v : option Z) (self : ContentPlugin) : ContentPlugin :=
  {| class_name := class_name self;
     model := model self;
     render_template := render_template self;
     cache_output := cache_output self;
     cache_output_per_site := cache_output_per_site self;
     _type_id := v |}.

(** The methods that the other methods call on [self], and that a plugin
    class may therefore replace. *)
Class Overridable : Type := {
  self_get_output_cache_key :
    ContentPlugin -> string -> Instance -> M string;
  self_get_render_template :
    ContentPlugin -> Request -> Instance -> gmap string PyValue -> M (option string);
  self_get_context :
    ContentPlugin -> Request -> Instance -> gmap string PyValue
    -> M (gmap string PyValue);
  self_render_to_string :
    ContentPlugin -> Request -> string -> gmap string PyValue -> option Context
    -> M string;
}.

(** [__init__]. *)
Definition __init__ (self : ContentPlugin) : ContentPlugin :=
  set__type_id None self.

(** The [type_id] property.  It returns the plugin object next to the
    result, as it assigns [self._type_id]. *)
Definition type_id (self : ContentPlugin) : World -> Res Z * ContentPlugin * World :=
  fun w =>
    match _type_id self with
    | None =>
        match
          try_except_DatabaseError
            (ct <- ContentType_objects_get_for_model (model self) ;; ret (id ct))
            (fun e =>
               text <- str e ;;
               raise (DatabaseError
                 ("Unable to fetch ContentType object, is a plugin being registered before the initial syncdb? (original error: "
                  +:+ text +:+ ")")))
            w
        with
        | (Ok v, w') => (Ok v, set__type_id (Some v) self, w')
        | (Raise e, w') => (Raise e, self, w')
        end
    | Some v => (Ok v, self, w)
    end.

(** ["{0}-s{1}".format(cachekey, site_id)]. *)
Definition site_key (cachekey : string) (site_id : Z) : string :=
  cachekey +:+ "-s" +:+ pretty site_id.

Definition get_output_cache_key (self : ContentPlugin)
    (placeholder_name : string) (instance : Instance) : M string :=
  let cachekey := get_rendering_cache_key placeholder_name instance in
  if cache_output_per_site self then
    SITE_ID <- get_SITE_ID ;;
    ret (site_key cachekey SITE_ID)
  else ret cachekey.

Definition get_output_cache_keys `{Overridable} (self : ContentPlugin)
    (placeholder_name : string) (instance : Instance) : M (list string) :=
  if cache_output_per_site self then
    site_ids <- Site_objects_values_list_pk ;;
    SITE_ID <- get_SITE_ID ;;
    let site_ids :=
      if bool_decide (SITE_ID ∈ site_ids) then site_ids
      else site_ids ++ [SITE_ID] in
    let base_key := get_rendering_cache_key placeholder_name instance in
    ret (map (fun site_id => site_key base_key site_id) site_ids)
  else
    key <- self_get_output_cache_key self placeholder_name instance ;;
    ret [key].

Definition get_cached_output `{Overridable} (self : ContentPlugin)
    (placeholder_name : string) (instance : Instance) : M (option string) :=
  cachekey <- self_get_output_cache_key self placeholder_name instance ;;
  cache_get cachekey.

Definition set_cached_output `{Overridable} (self : ContentPlugin)
    (placeholder_name : string) (instance : Instance) (html : string) : M unit :=
  cachekey <- self_get_output_cache_key self placeholder_name instance ;;
  cache_set cachekey html.

(** Truth value of what [get_render_template] returns: [None] and the
    empty string are false. *)
Definition truthy (template : option string) : bool :=
  match template with
  | None => false
  | Some EmptyString => false
  | Some _ => true
  end.

Definition render `{Overridable} (self : ContentPlugin) (request : Request)
    (instance : Instance) (kwargs : gmap string PyValue) : M string :=
  render_template <- self_get_render_template self request instance kwargs ;;
  if negb (truthy render_template) then
    ugettext ("{No rendering defined for class '" +:+ class_name self +:+ "'}")
  else
    context <- self_get_context self request instance kwargs ;;
    self_render_to_string self request (default "" render_template) context None.

Definition render_to_string (self : ContentPlugin) (request : Request)
    (template : string) (context : gmap string PyValue)
    (content_instance : option Context) : M string :=
  content_instance <-
    match content_instance with
    | None => PluginContext request None
    | Some c => ret c
    end ;;
  loader_render_to_string template context content_instance.

Definition render_error (self : ContentPlugin) (error : Exception) : M string :=
  label <- ugettext "Error:" ;;
  text <- str error ;;
  escaped <- escape text ;;
  ret ("<div style=" +:+ String DQUOTE "color: red; border: 1px solid red; padding: 5px;"
       +:+ String DQUOTE ">"
       +:+ "<p><strong>" +:+ label +:+ "</strong></p>"
       +:+ linebreaks escaped +:+ "</div>").

Definition get_render_template (self : ContentPlugin) (request : Request)
    (instance : Instance) (kwargs : gmap string PyValue) : M (option string) :=
  ret (render_template self).

Definition get_context (self : ContentPlugin) (request : Request)
    (instance : Instance) (kwargs : gmap string PyValue)
    : M (gmap string PyValue) :=
  ret {[ "instance" := PyInstance instance ]}.

(** The class [ContentPlugin] itself: nothing is replaced. *)
#[local] Instance ContentPlugin_methods : Overridable := {|
  self_get_output_cache_key := get_output_cache_key;
  self_get_render_template := get_render_template;
  self_get_context := get_context;
  self_render_to_string := render_to_string;
|}.

(** [_render_contentitem]: [self.render] is the [render] of the class of
    the plugin, here [self_render]; no keyword argument is passed on. *)
Definition _render_contentitem
    (self_render : ContentPlugin -> Request -> Instance -> gmap string PyValue
                   -> M string)
    (self : ContentPlugin) (request : Request) (instance : Instance) : M string :=
  self_render self request instance ∅.

(** The site ids [get_output_cache_keys] builds its keys for, to state
    what it returns. *)
Definition listed_site_ids (w : World) : list Z :=
  if bool_decide (settings_SITE_ID w ∈ Site_pks w) then Site_pks w
  else Site_pks w ++ [settings_SITE_ID w].

(** ** Cache keys *)

Lemma site_key_inj (cachekey : string) (s1 s2 : Z) :
  site_key cachekey s1 = site_key cachekey s2 -> s1 = s2.
Proof.
  unfold site_key. intros E.
  apply (inj (String.app cachekey)) in E.
  apply (inj (String.app "-s")) in E.
  by apply (inj pretty) in E.
Qed.

Lemma get_output_cache_key_run (self : ContentPlugin) (p : string)
    (i : Instance) (w : World) :
  get_output_cache_key self p i w =
    (Ok (if cache_output_per_site self
         then site_key (get_rendering_cache_key p i) (settings_SITE_ID w)
         else get_rendering_cache_key p i), w).
Proof. unfold get_output_cache_key. by destruct (cache_output_per_site self). Qed.

Lemma get_output_cache_keys_run (self : ContentPlugin) (p : string)
    (i : Instance) (w : World) :
  get_output_cache_keys self p i w =
    (Ok (if cache_output_per_site self
         then map (site_key (get_rendering_cache_key p i)) (listed_site_ids w)
         else [get_rendering_cache_key p i]), w).
Proof.
  unfold get_output_cache_keys, listed_site_ids; simpl.
  unfold get_output_cache_key.
  destruct (cache_output_per_site self) eqn:E; [|done].
  unfold bind; simpl. by case_bool_decide.
Qed.

Lemma current_site_listed (w : World) : settings_SITE_ID w ∈ listed_site_ids w.
Proof.
  unfold listed_site_ids. case_bool_decide; [done|].
  apply elem_of_app; right. by apply list_elem_of_singleton.
Qed.

(** C1: without per-site caching [get_output_cache_keys] returns the base
    key alone; with per-site caching it returns the key of every known
    site, in the order of the site table, followed by the key of the
    current site exactly when that site is not a known one, so that the
    list is as long as the site table, or one longer. *)
Theorem get_output_cache_keys_listing (self : ContentPlugin) (p : string)
    (i : Instance) (w : World) :
  let base_key := get_rendering_cache_key p i in
  (cache_output_per_site self = false ->
     get_output_cache_keys self p i w = (Ok [base_key], w))
  /\ (cache_output_per_site self = true ->
       exists keys,
         get_output_cache_keys self p i w = (Ok keys, w)
         /\ (settings_SITE_ID w ∈ Site_pks w ->
               keys = map (site_key base_key) (Site_pks w)
               /\ length keys = length (Site_pks w))
         /\ (settings_SITE_ID w ∉ Site_pks w ->
               keys = map (site_key base_key) (Site_pks w)
                        ++ [site_key base_key (settings_SITE_ID w)]
               /\ length keys = S (length (Site_pks w)))).
Proof.
  intros base_key. rewrite get_output_cache_keys_run. split; intros ->; [done|].
  eexists; split; [reflexivity|]. unfold listed_site_ids.
  split; intros Hin; rewrite ?bool_decide_eq_true_2, ?bool_decide_eq_false_2 by done.
  - by rewrite length_map.
  - rewrite map_app, length_app, !length_map; simpl. split; [done|lia].
Qed.

(** C2: the key [get_output_cache_key] returns is one of the keys
    [get_output_cache_keys] returns, whatever the per-site setting, the
    site table and the current site id. *)
Theorem get_output_cache_key_among_keys (self : ContentPlugin) (p : string)
    (i : Instance) (w : World) :
  exists key keys,
    get_output_cache_key self p i w = (Ok key, w)
    /\ get_output_cache_keys self p i w = (Ok keys, w)
    /\ key ∈ keys.
Proof.
  rewrite get_output_cache_key_run, get_output_cache_keys_run.
  do 2 eexists; split; [reflexivity|]; split; [reflexivity|].
  destruct (cache_output_per_site self).
  - apply list_elem_of_fmap. eexists; split; [reflexivity|].
    apply current_site_listed.
  - by apply list_elem_of_singleton.
Qed.

(** C6: with per-site caching, the keys derived for one item in one
    placeholder under two states of the process are equal exactly when
    the two current site ids are equal; likewise two site ids never share
    an entry of the key listing. *)
Theorem per_site_keys_distinguish_sites (self : ContentPlugin) (p : string)
    (i : Instance) (w1 w2 : World) :
  cache_output_per_site self = true ->
  exists k1 k2,
    get_output_cache_key self p i w1 = (Ok k1, w1)
    /\ get_output_cache_key self p i w2 = (Ok k2, w2)
    /\ (settings_SITE_ID w1 = settings_SITE_ID w2 -> k1 = k2)
    /\ (settings_SITE_ID w1 <> settings_SITE_ID w2 -> k1 <> k2)
    /\ (forall s1 s2 : Z, s1 <> s2 ->
          site_key (get_rendering_cache_key p i) s1
          <> site_key (get_rendering_cache_key p i) s2).
Proof.
  intros Hps. rewrite !get_output_cache_key_run, Hps.
  do 2 eexists; split; [reflexivity|]; split; [reflexivity|].
  split; [by intros ->|].
  split; [|intros s1 s2]; intros Hne E; exact (Hne (site_key_inj _ _ _ E)).
Qed.

(** C7: without per-site caching the key does not depend on the current
    site id (nor on anything else of the state of the process), and
    output stored under one site id is what a read under any other site
    id finds. *)
Theorem shared_key_across_sites (self : ContentPlugin) (p : string)
    (i : Instance) (html : string) (w1 w2 : World) :
  cache_output_per_site self = false ->
  fst (get_output_cache_key self p i w1) = fst (get_output_cache_key self p i w2)
  /\ (cache w2 = cache (snd (set_cached_output self p i html w1)) ->
       get_cached_output self p i w2 = (Ok (Some html), w2)).
Proof.
  intros Hps. rewrite !get_output_cache_key_run, Hps. split; [done|].
  unfold set_cached_output, get_cached_output, bind; simpl.
  rewrite !get_output_cache_key_run, Hps; simpl.
  unfold cache_get. intros ->. by rewrite lookup_insert_eq.
Qed.

(** C8: [get_output_cache_key] returns a key and leaves the state of the
    process as it found it; a second call returns the same key, and so
    does a call in any state with the same current site id. *)
Theorem get_output_cache_key_pure (self : ContentPlugin) (p : string)
    (i : Instance) (w : World) :
  exists key,
    get_output_cache_key self p i w = (Ok key, w)
    /\ (k1 <- get_output_cache_key self p i ;;
        k2 <- get_output_cache_key self p i ;;
        ret (k1, k2)) w = (Ok (key, key), w)
    /\ forall w', settings_SITE_ID w' = settings_SITE_ID w ->
         get_output_cache_key self p i w' = (Ok key, w').
Proof.
  eexists; split; [apply get_output_cache_key_run|]. split.
  - unfold bind. by rewrite !get_output_cache_key_run.
  - intros w' E. by rewrite get_output_cache_key_run, E.
Qed.

(** C3: [set_cached_output] followed by [get_cached_output] returns the
    stored output.  Both go through the key of [get_output_cache_key]:
    the write changes that entry of the cache and nothing else, and a
    read under the same site id returns that entry, so it returns the
    output as long as the entry has not been replaced or removed. *)
Theorem cached_output_round_trip (self : ContentPlugin) (p : string)
    (i : Instance) (html : string) (w : World) :
  exists key,
    get_output_cache_key self p i w = (Ok key, w)
    /\ set_cached_output self p i html w
         = (Ok tt, set_cache (<[key := html]> (cache w)) w)
    /\ (_ <- set_cached_output self p i html ;; get_cached_output self p i) w
         = (Ok (Some html), set_cache (<[key := html]> (cache w)) w)
    /\ forall w', settings_SITE_ID w' = settings_SITE_ID w ->
         get_cached_output self p i w' = (Ok (cache w' !! key), w').
Proof.
  eexists; split; [apply get_output_cache_key_run|].
  unfold set_cached_output, get_cached_output, bind; simpl.
  rewrite !get_output_cache_key_run; simpl.
  split; [done|]. split.
  - unfold cache_get; simpl. rewrite get_output_cache_key_run; simpl.
    by rewrite lookup_insert_eq.
  - intros w' E. by rewrite get_output_cache_key_run, E.
Qed.

(** ** Rendering *)

(** C9: the [get_context] of the base class returns a mapping whose only
    entry binds ["instance"] to the instance it was given, and changes
    nothing. *)
Theorem get_context_default (self : ContentPlugin) (request : Request)
    (instance : Instance) (kwargs : gmap string PyValue) (w : World) :
  exists context : gmap string PyValue,
    get_context self request instance kwargs w = (Ok context, w)
    /\ context !! "instance" = Some (PyInstance instance)
    /\ (forall key : string, key <> "instance" -> context !! key = None)
    /\ dom context = {[ "instance" ]}
    /\ size context = 1%nat.
Proof.
  eexists; split; [reflexivity|]. split; [apply lookup_singleton_eq|].
  split; [intros key Hne; by apply lookup_singleton_ne|].
  split; [apply dom_singleton_L|apply map_size_singleton].
Qed.

Lemma render_falsy_template `{H : Overridable} (self : ContentPlugin)
    (request : Request) (instance : Instance) (kwargs : gmap string PyValue)
    (template : option string) (w w' : World) :
  self_get_render_template self request instance kwargs w = (Ok template, w') ->
  truthy template = false ->
  render self request instance kwargs w =
    (Ok (catalogue w'
           ("{No rendering defined for class '" +:+ class_name self +:+ "'}")),
     w').
Proof. intros E Ht. unfold render, bind. by rewrite E, Ht. Qed.

(** C5: when [get_render_template], whichever the plugin class uses,
    returns [None], [render] returns the translation of the "no rendering
    defined" message and stops there: the state it leaves is the one
    [get_render_template] left, so neither the context nor the template
    loader has been called. *)
Theorem render_without_template `{H : Overridable} (self : ContentPlugin)
    (request : Request) (instance : Instance) (kwargs : gmap string PyValue)
    (w w' : World) :
  self_get_render_template self request instance kwargs w = (Ok None, w') ->
  render self request instance kwargs w =
    (Ok (catalogue w'
           ("{No rendering defined for class '" +:+ class_name self +:+ "'}")),
     w')
  /\ template_calls (snd (render self request instance kwargs w))
       = template_calls w'.
Proof.
  intros E. rewrite (render_falsy_template _ _ _ _ None w w' E eq_refl).
  by split.
Qed.

(** A plugin of the base class with [render_template = None]. *)
Lemma render_base_without_template (self : ContentPlugin) (request : Request)
    (instance : Instance) (kwargs : gmap string PyValue) (w : World) :
  render_template self = None ->
  render (H := ContentPlugin_methods) self request instance kwargs w =
    (Ok (catalogue w
           ("{No rendering defined for class '" +:+ class_name self +:+ "'}")),
     w).
Proof.
  intros E. apply (render_falsy_template _ _ _ _ None); [|done].
  simpl. unfold get_render_template. by rewrite E.
Qed.

(** With a template, the base class builds the context and hands both to
    the template loader, once. *)
Lemma render_base_with_template (self : ContentPlugin) (request : Request)
    (instance : Instance) (kwargs : gmap string PyValue) (template : string)
    (w : World) :
  render_template self = Some template ->
  template <> "" ->
  forall context_instance w1,
    PluginContext request None w = (Ok context_instance, w1) ->
    render (H := ContentPlugin_methods) self request instance kwargs w =
      loader_render_to_string template {[ "instance" := PyInstance instance ]}
        context_instance w1.
Proof.
  intros E Hne c w1 Ec. unfold render, bind; simpl.
  unfold get_render_template, ret. rewrite E.
  destruct template; [done|]. simpl.
  unfold render_to_string, bind. by rewrite Ec.
Qed.

(** ** The error block *)

Lemma append_assoc (a b c : string) : (a +:+ b) +:+ c = a +:+ (b +:+ c).
Proof. induction a as [|x a IH]; simpl; [done|]. by rewrite IH. Qed.

Lemma replace_app (old : ascii) (new a b : string) :
  replace old new (a +:+ b) = replace old new a +:+ replace old new b.
Proof.
  induction a as [|c a IH]; simpl; [done|].
  rewrite IH. destruct (Ascii.eqb c old); simpl; [|done].
  by rewrite append_assoc.
Qed.

Lemma escape_unicode_app (a b : string) :
  escape_unicode (a +:+ b) = escape_unicode a +:+ escape_unicode b.
Proof. unfold escape_unicode. by rewrite !replace_app. Qed.

Lemma occurs_app (c : ascii) (a b : string) :
  occurs c (a +:+ b) = occurs c a || occurs c b.
Proof.
  induction a as [|c' a IH]; simpl; [done|]. by rewrite IH, orb_assoc.
Qed.

(** A replaced character is gone, unless the replacement brings it back. *)
Lemma occurs_replace_same (c : ascii) (new s : string) :
  occurs c new = false -> occurs c (replace c new s) = false.
Proof.
  intros Hnew. induction s as [|c' s IH]; simpl; [done|].
  destruct (Ascii.eqb c' c) eqn:E; simpl.
  - by rewrite occurs_app, Hnew, IH.
  - by rewrite E, IH.
Qed.

(** A character that is absent stays absent, unless the replacement brings
    it. *)
Lemma occurs_replace_other (c old : ascii) (new s : string) :
  occurs c new = false -> occurs c s = false ->
  occurs c (replace old new s) = false.
Proof.
  intros Hnew. induction s as [|c' s IH]; simpl; [done|].
  intros [Hc Hs]%orb_false_elim.
  destruct (Ascii.eqb c' old); simpl.
  - by rewrite occurs_app, Hnew, IH.
  - by rewrite Hc, IH.
Qed.

Lemma escape_no_markup_character (s : string) :
  occurs "<" (escape_unicode s) = false /\ occurs ">" (escape_unicode s) = false
  /\ occurs DQUOTE (escape_unicode s) = false
  /\ occurs "'" (escape_unicode s) = false.
Proof.
  unfold escape_unicode. repeat split.
  - do 3 (apply occurs_replace_other; [done|]). by apply occurs_replace_same.
  - do 2 (apply occurs_replace_other; [done|]). by apply occurs_replace_same.
  - apply occurs_replace_other; [done|]. by apply occurs_replace_same.
  - by apply occurs_replace_same.
Qed.

(** One step of the string functions, the characters left as they are. *)
Ltac step :=
  cbn [occurs replace normalize_newlines split_paras_go split_paras cons_head
       join only_linebreaks_tags String.append orb andb map].
Tactic Notation "step" "in" hyp(H) :=
  cbn [occurs replace normalize_newlines split_paras_go split_paras cons_head
       join only_linebreaks_tags String.append orb andb map] in H.

Lemma occurs_normalize_newlines (c : ascii) (s : string) :
  c <> LF -> occurs c s = false -> occurs c (normalize_newlines s) = false.
Proof.
  intros Hc.
  assert (HLF : Ascii.eqb LF c = false) by (apply Ascii.eqb_neq; congruence).
  cut ((occurs c s = false -> occurs c (normalize_newlines s) = false)
       /\ forall a, occurs c (String a s) = false ->
                    occurs c (normalize_newlines (String a s)) = false).
  { intros [Hs _]. exact Hs. }
  induction s as [|b s [IH1 IH2]].
  - split; [done|]. intros a. step.
    destruct (Ascii.eqb a CR); step; [by rewrite HLF|done].
  - split; [apply IH2|]. intros a Ha.
    apply orb_false_elim in Ha as [Ha Hs].
    change (normalize_newlines (String a (String b s))) with
      (if Ascii.eqb a CR
       then if Ascii.eqb b LF then String LF (normalize_newlines s)
            else String LF (normalize_newlines (String b s))
       else String a (normalize_newlines (String b s))).
    pose proof Hs as Hs'. apply orb_false_elim in Hs' as [_ Hs'].
    destruct (Ascii.eqb a CR); [destruct (Ascii.eqb b LF)|];
      cbn [occurs]; rewrite ?HLF, ?Ha; cbn [orb]; auto.
Qed.

Lemma normalize_newlines_id (s : string) :
  occurs CR s = false -> normalize_newlines s = s.
Proof.
  induction s as [|c s IH]; [done|]. intros [Hc Hs]%orb_false_elim.
  cbn [normalize_newlines]. rewrite Hc. by rewrite IH.
Qed.

Lemma Forall_cons_head (P : string -> Prop) (c : ascii) (parts : list string) :
  (forall p, P p -> P (String c p)) -> P (String c "") ->
  Forall P parts -> Forall P (cons_head c parts).
Proof.
  intros Hstep Hone [|p ps Hp Hps]; step; constructor; auto.
Qed.

Lemma occurs_split_paras_go (c : ascii) (in_run : bool) (s : string) :
  occurs c s = false ->
  Forall (fun p => occurs c p = false) (split_paras_go in_run s).
Proof.
  revert in_run. induction s as [|a s IH]; intros in_run; [by repeat constructor|].
  intros [Ha Hs]%orb_false_elim.
  assert (Hhead : Forall (fun p => occurs c p = false)
                    (cons_head a (split_paras_go false s))).
  { apply Forall_cons_head; [|by step; rewrite Ha|by apply IH].
    intros p Hp. step. by rewrite Ha, Hp. }
  cbn [split_paras_go].
  destruct (Ascii.eqb a LF) eqn:Ea; [|done].
  apply Ascii.eqb_eq in Ea as ->.
  destruct in_run; [by apply IH|].
  destruct s as [|b s]; [done|].
  destruct (Ascii.eqb b LF); [|done].
  constructor; [done|by apply IH].
Qed.

Lemma split_paras_one (s : string) :
  occurs LF s = false -> split_paras s = [s].
Proof.
  unfold split_paras. induction s as [|c s IH]; [done|].
  intros [Hc Hs]%orb_false_elim. cbn [split_paras_go].
  rewrite Hc, IH by done. done.
Qed.

Lemma replace_absent (old : ascii) (new s : string) :
  occurs old s = false -> replace old new s = s.
Proof.
  induction s as [|c s IH]; [done|]. intros [Hc Hs]%orb_false_elim.
  step. by rewrite Hc, IH.
Qed.

Lemma prefix_append (t a b : string) :
  String.prefix t a = true -> String.prefix t (a +:+ b) = true.
Proof.
  revert a. induction t as [|x t IH]; intros a.
  - by destruct a, b.
  - destruct a as [|y a]; simpl; [done|].
    destruct (ascii_dec x y); [apply IH|done].
Qed.

Lemma only_linebreaks_tags_app (a b : string) :
  only_linebreaks_tags a = true -> only_linebreaks_tags b = true ->
  only_linebreaks_tags (a +:+ b) = true.
Proof.
  intros Ha Hb. induction a as [|c a IH]; [done|].
  step in Ha; step. apply andb_true_iff in Ha as [Hc Ha].
  rewrite IH, andb_true_r by done.
  destruct (Ascii.eqb c "<"); [|done].
  apply orb_true_iff in Hc as [Hc|Hc];
    [apply orb_true_iff in Hc as [Hc|Hc]|];
    rewrite (prefix_append _ _ _ Hc); by rewrite ?orb_true_r.
Qed.

Lemma only_linebreaks_tags_plain (s : string) :
  occurs "<" s = false -> only_linebreaks_tags s = true.
Proof.
  induction s as [|c s IH]; [done|]. intros [Hc Hs]%orb_false_elim.
  step. by rewrite Hc, IH.
Qed.

Lemma only_linebreaks_tags_br (p : string) :
  occurs "<" p = false ->
  only_linebreaks_tags (replace LF "<br />" p) = true.
Proof.
  induction p as [|c p IH]; [done|]. intros [Hc Hp]%orb_false_elim.
  step. destruct (Ascii.eqb c LF).
  - apply (only_linebreaks_tags_app "<br />"); [done|by apply IH].
  - step. by rewrite Hc, IH.
Qed.

Lemma only_linebreaks_tags_join (sep : string) (parts : list string) :
  only_linebreaks_tags sep = true ->
  Forall (fun p => only_linebreaks_tags p = true) parts ->
  only_linebreaks_tags (join sep parts) = true.
Proof.
  intros Hsep. induction 1 as [|p ps Hp Hps IH]; [done|].
  destruct ps as [|q ps]; [done|].
  change (join sep (p :: q :: ps)) with (p +:+ sep +:+ join sep (q :: ps)).
  by repeat apply only_linebreaks_tags_app.
Qed.

Lemma linebreaks_only_its_tags (s : string) :
  occurs "<" s = false -> only_linebreaks_tags (linebreaks s) = true.
Proof.
  intros Hs. unfold linebreaks. apply only_linebreaks_tags_join; [reflexivity|].
  apply Forall_map.
  apply (Forall_impl (fun p => occurs "<" p = false)).
  { apply occurs_split_paras_go, occurs_normalize_newlines; [by unfold LF|done]. }
  intros p Hp. step.
  apply (only_linebreaks_tags_app "<p>"); [done|].
  apply only_linebreaks_tags_app; [by apply only_linebreaks_tags_br|done].
Qed.

Lemma linebreaks_one_line (s : string) :
  occurs LF s = false -> occurs CR s = false ->
  linebreaks s = "<p>" +:+ s +:+ "</p>".
Proof.
  intros HLF HCR. unfold linebreaks.
  rewrite normalize_newlines_id, split_paras_one by done. step.
  by rewrite replace_absent.
Qed.

Lemma render_error_run (self : ContentPlugin) (error : Exception)
    (text : string) (w : World) :
  str error w = (Ok text, w) ->
  utf8_valid text = true ->
  render_error self error w =
    (Ok ("<div style=" +:+ String DQUOTE "color: red; border: 1px solid red; padding: 5px;"
         +:+ String DQUOTE ">"
         +:+ "<p><strong>" +:+ catalogue w "Error:" +:+ "</strong></p>"
         +:+ linebreaks (escape_unicode text) +:+ "</div>"), w).
Proof.
  intros Estr Hvalid. unfold render_error, bind, ugettext.
  rewrite Estr. unfold escape. by rewrite Hvalid.
Qed.

Lemma str_Unicode_not_ascii (error : Exception) (u : list N) (w : World) :
  exc_message error = Unicode u -> is_ascii u = false ->
  str error w = (Raise (UnicodeEncodeError (encode_error_text w u)), w).
Proof. intros E Hu. unfold str. by rewrite E, Hu. Qed.

Lemma str_Bytes (error : Exception) (b : string) (w : World) :
  exc_message error = Bytes b -> str error w = (Ok b, w).
Proof. intros E. unfold str. by rewrite E. Qed.

(** C4: [render_error] does not return an error block for every error.
    For an error whose argument is a unicode string with a code point
    that is not ASCII, [str(error)] raises [UnicodeEncodeError], and
    for one whose argument is a byte string that is not UTF-8, [escape]
    raises [DjangoUnicodeDecodeError]: [render_error] raises that
    exception in place of returning a block. *)
Theorem render_error_raises_on_non_ascii (self : ContentPlugin)
    (error : Exception) (w : World) :
  (forall u, exc_message error = Unicode u -> is_ascii u = false ->
     render_error self error w
     = (Raise (UnicodeEncodeError (encode_error_text w u)), w))
  /\ (forall b, exc_message error = Bytes b -> utf8_valid b = false ->
       render_error self error w
       = (Raise (DjangoUnicodeDecodeError (decode_error_text w b)), w)).
Proof.
  unfold render_error, bind, ugettext. split.
  - intros u E Hu. by rewrite (str_Unicode_not_ascii _ _ _ E Hu).
  - intros b E Hb. rewrite (str_Bytes _ _ _ E). unfold escape. by rewrite Hb.
Qed.

(** When [str(error)] returns and what it returns is UTF-8,
    [render_error] returns the error block: the opening of the [div], the
    translated label, what [linebreaks] makes of the escaped text of the
    error, and the closing tag.  The escaped text holds no angle bracket
    and no quote, so that [<script>] in the text of the error comes out
    as [&lt;script&gt;]; the only tags in what follows the label are the
    [<p>], [</p>] and [<br />] of [linebreaks]; and a text of one line is
    interpolated as one paragraph holding its escaped form. *)
Theorem render_error_escaped (self : ContentPlugin) (error : Exception)
    (text : string) (w : World) :
  str error w = (Ok text, w) ->
  utf8_valid text = true ->
  let escaped := escape_unicode text in
  render_error self error w =
    (Ok ("<div style=" +:+ String DQUOTE "color: red; border: 1px solid red; padding: 5px;"
         +:+ String DQUOTE ">"
         +:+ "<p><strong>" +:+ catalogue w "Error:" +:+ "</strong></p>"
         +:+ linebreaks escaped +:+ "</div>"), w)
  /\ (occurs "<" escaped = false /\ occurs ">" escaped = false
       /\ occurs DQUOTE escaped = false /\ occurs "'" escaped = false)
  /\ only_linebreaks_tags (linebreaks escaped) = true
  /\ (forall before after : string,
        text = before +:+ "<script>" +:+ after ->
        escaped = escape_unicode before +:+ "&lt;script&gt;"
                  +:+ escape_unicode after)
  /\ (occurs LF text = false -> occurs CR text = false ->
        linebreaks escaped = "<p>" +:+ escaped +:+ "</p>").
Proof.
  intros Estr Hvalid escaped.
  pose proof (escape_no_markup_character text) as Hesc.
  split; [by apply render_error_run|]. split; [exact Hesc|].
  split; [apply linebreaks_only_its_tags, Hesc|]. split.
  - intros before after E. unfold escaped. rewrite E.
    by rewrite !escape_unicode_app.
  - intros HLF HCR. apply linebreaks_one_line; unfold escaped, escape_unicode;
      by repeat (apply occurs_replace_other; [done|]).
Qed.

(** ** The content type id *)

Lemma __init___type_id (self : ContentPlugin) : _type_id (__init__ self) = None.
Proof. reflexivity. Qed.

Lemma str_state (e : Exception) (w : World) : snd (str e w) = w.
Proof.
  unfold str. destruct (exc_message e) as [b|u]; [done|].
  by destruct (is_ascii u).
Qed.

(** What [type_id] does with a lookup that raises. *)
Lemma type_id_lookup_raises (self : ContentPlugin) (w : World) (e : Exception) :
  _type_id self = None ->
  contenttypes w (model self) = Raise e ->
  type_id self w =
    (if isinstance e "DatabaseError" then
       match fst (str e w) with
       | Ok text =>
           Raise (DatabaseError
             ("Unable to fetch ContentType object, is a plugin being registered before the initial syncdb? (original error: "
              +:+ text +:+ ")"))
       | Raise e' => Raise e'
       end
     else Raise e, self, w).
Proof.
  intros Hnone E. unfold type_id, try_except_DatabaseError, bind,
    ContentType_objects_get_for_model. rewrite Hnone, E.
  destruct (isinstance e "DatabaseError"); [|done].
  pose proof (str_state e w) as Hw.
  destruct (str e w) as [[text|e'] w1]; simpl in Hw |- *; by subst w1.
Qed.

(** C10: on a plugin without a memoised id, a lookup that raises
    [DatabaseError] makes [type_id] raise a [DatabaseError] that quotes
    it, and any other exception of the lookup passes through; in both
    cases the plugin is left without an id.  A lookup that succeeds gives
    the id of the content type, which the plugin then holds: from there on
    [type_id] returns that id in every state of the process, whatever the
    lookup would answer. *)
Theorem type_id_memoised (self : ContentPlugin) (w : World) :
  _type_id self = None ->
  (forall msg, contenttypes w (model self) = Raise (DatabaseError msg) ->
     type_id self w =
       (Raise (DatabaseError
          ("Unable to fetch ContentType object, is a plugin being registered before the initial syncdb? (original error: "
           +:+ msg +:+ ")")), self, w))
  /\ (forall e, contenttypes w (model self) = Raise e ->
       exists e', type_id self w = (Raise e', self, w))
  /\ (forall ct, contenttypes w (model self) = Ok ct ->
       let self' := set__type_id (Some (id ct)) self in
       type_id self w = (Ok (id ct), self', w)
       /\ _type_id self' = Some (id ct)
       /\ forall w', type_id self' w' = (Ok (id ct), self', w')).
Proof.
  intros Hnone. split; [|split].
  - intros msg E. by rewrite (type_id_lookup_raises _ _ _ Hnone E).
  - intros e E. rewrite (type_id_lookup_raises _ _ _ Hnone E).
    destruct (isinstance e "DatabaseError"); [|by eexists].
    destruct (fst (str e w)); by eexists.
  - unfold type_id, try_except_DatabaseError, bind,
      ContentType_objects_get_for_model. rewrite Hnone. by intros ct ->.
Qed.

(** ** More on the cache keys *)

(** The decimal form of an integer holds digits and at most a sign. *)
Lemma occurs_pretty_N_go (c : ascii) (x : N) (s : string) :
  (forall d : N, pretty_N_char d <> c) ->
  occurs c (pretty_N_go x s) = occurs c s.
Proof.
  intros Hc. revert s.
  induction (N.lt_wf_0 x) as [x _ IH]; intros s.
  assert (x = 0 \/ 0 < x)%N as [->|Hx] by lia.
  - by rewrite pretty_N_go_0.
  - rewrite pretty_N_go_step by done.
    rewrite IH by (by apply N.div_lt). cbn [occurs].
    by rewrite (proj2 (Ascii.eqb_neq _ _) (Hc _)).
Qed.

Lemma pretty_N_char_not_s (d : N) : pretty_N_char d <> "s"%char.
Proof. unfold pretty_N_char. by repeat case_match. Qed.

Lemma occurs_s_pretty_Z (z : Z) : occurs "s" (pretty z) = false.
Proof.
  assert (HN : forall x : N, occurs "s" (pretty x) = false).
  { intros x. unfold pretty, pretty_N. case_decide; [done|].
    by rewrite occurs_pretty_N_go by apply pretty_N_char_not_s. }
  destruct z as [|x|x]; [done|apply (HN (Npos x))|].
  change (pretty (Zneg x)) with ("-" +:+ pretty (Npos x)).
  rewrite occurs_app. by rewrite (HN (Npos x)).
Qed.

(** A string is cut in one way only at its last ["s"]. *)
Lemma split_at_last_s (a1 a2 d1 d2 : string) :
  occurs "s" d1 = false -> occurs "s" d2 = false ->
  a1 +:+ String "s" d1 = a2 +:+ String "s" d2 -> a1 = a2 /\ d1 = d2.
Proof.
  intros H1 H2. revert a2.
  induction a1 as [|x a1 IH]; intros [|y a2] E; simpl in E.
  - by injection E.
  - injection E as _ E. rewrite E, occurs_app in H1. cbn [occurs] in H1.
    rewrite Ascii.eqb_refl in H1. by destruct (occurs "s" a2).
  - injection E as _ E. rewrite <- E, occurs_app in H2. cbn [occurs] in H2.
    rewrite Ascii.eqb_refl in H2. by destruct (occurs "s" a1).
  - injection E as -> E. by destruct (IH _ E) as [-> ->].
Qed.

Lemma append_char_inj (a b : string) (c : ascii) :
  a +:+ String c "" = b +:+ String c "" -> a = b.
Proof.
  revert b. induction a as [|x a IH]; intros [|y b] E; simpl in E; [done|..].
  - injection E as _ E. by destruct b.
  - injection E as _ E. by destruct a.
  - injection E as -> E. by rewrite (IH _ E).
Qed.

Lemma site_key_inj_both (b1 b2 : string) (s1 s2 : Z) :
  site_key b1 s1 = site_key b2 s2 -> b1 = b2 /\ s1 = s2.
Proof.
  unfold site_key. intros E.
  change (b1 +:+ "-s" +:+ pretty s1)
    with (b1 +:+ String "-" "" +:+ String "s" (pretty s1)) in E.
  change (b2 +:+ "-s" +:+ pretty s2)
    with (b2 +:+ String "-" "" +:+ String "s" (pretty s2)) in E.
  rewrite <- !append_assoc in E.
  apply split_at_last_s in E as [Eb Es]; [|apply occurs_s_pretty_Z..].
  split; [by apply append_char_inj in Eb|by apply (inj pretty) in Es].
Qed.

(** With per-site caching, a key tells both the item and the site: two
    derivations that give one key were made for the same rendering cache
    key and under the same current site id. *)
Theorem per_site_key_determines_item_and_site (self : ContentPlugin)
    (p1 p2 : string) (i1 i2 : Instance) (w1 w2 : World) (key : string) :
  cache_output_per_site self = true ->
  get_output_cache_key self p1 i1 w1 = (Ok key, w1) ->
  get_output_cache_key self p2 i2 w2 = (Ok key, w2) ->
  get_rendering_cache_key p1 i1 = get_rendering_cache_key p2 i2
  /\ settings_SITE_ID w1 = settings_SITE_ID w2.
Proof.
  intros Hps. rewrite !get_output_cache_key_run, Hps.
  intros [= E1] [= E2]. apply site_key_inj_both. congruence.
Qed.

Lemma NoDup_listed_site_ids (w : World) :
  NoDup (Site_pks w) -> NoDup (listed_site_ids w).
Proof.
  intros Hnd. unfold listed_site_ids. case_bool_decide as Hin; [done|].
  apply NoDup_app. split; [done|]. split; [|apply NoDup_singleton].
  intros x Hx ->%list_elem_of_singleton. done.
Qed.

(** When the site table holds every id once, no key comes twice in the
    list of [get_output_cache_keys]. *)
Theorem get_output_cache_keys_NoDup (self : ContentPlugin) (p : string)
    (i : Instance) (w : World) (keys : list string) :
  NoDup (Site_pks w) ->
  get_output_cache_keys self p i w = (Ok keys, w) ->
  NoDup keys.
Proof.
  intros Hnd. rewrite get_output_cache_keys_run. intros [= <-].
  destruct (cache_output_per_site self); [|apply NoDup_singleton].
  apply (NoDup_fmap_2_strong (site_key (get_rendering_cache_key p i)));
    [|by apply NoDup_listed_site_ids].
  intros x y _ _. apply site_key_inj.
Qed.

(** With per-site caching, the key in use under some current site id is
    in the list computed in a state [w] exactly when that site id is in
    the site table of [w] or is the current site id of [w]: the entries of
    any other site are not in the list. *)
Theorem listed_keys_are_those_of_listed_sites (self : ContentPlugin)
    (p : string) (i : Instance) (w w' : World) :
  cache_output_per_site self = true ->
  exists keys key',
    get_output_cache_keys self p i w = (Ok keys, w)
    /\ get_output_cache_key self p i w' = (Ok key', w')
    /\ (key' ∈ keys <->
        settings_SITE_ID w' ∈ Site_pks w
        \/ settings_SITE_ID w' = settings_SITE_ID w).
Proof.
  intros Hps. rewrite get_output_cache_keys_run, get_output_cache_key_run, Hps.
  do 2 eexists; split; [reflexivity|]; split; [reflexivity|].
  rewrite list_elem_of_fmap. unfold listed_site_ids. split.
  - intros (s & E & Hs). apply site_key_inj in E as ->.
    case_bool_decide; [by left|].
    apply elem_of_app in Hs as [Hs|Hs%list_elem_of_singleton]; auto.
  - intros Hs. eexists; split; [reflexivity|].
    case_bool_decide as Hin; destruct Hs as [Hs| ->]; try done.
    + apply elem_of_app; by left.
    + apply elem_of_app; right. by apply list_elem_of_singleton.
Qed.

(** Once no key of the list has an entry, a read is a miss: without
    per-site caching under any current site id, with per-site caching
    under the current site id of the listing and under every site id of
    its site table. *)
Theorem cleared_keys_give_miss (self : ContentPlugin) (p : string)
    (i : Instance) (w w' : World) (keys : list string) :
  get_output_cache_keys self p i w = (Ok keys, w) ->
  (cache_output_per_site self = true ->
   settings_SITE_ID w' ∈ Site_pks w
   \/ settings_SITE_ID w' = settings_SITE_ID w) ->
  (forall key, key ∈ keys -> cache w' !! key = None) ->
  get_cached_output self p i w' = (Ok None, w').
Proof.
  rewrite get_output_cache_keys_run. intros [= <-] Hsite Hclear.
  unfold get_cached_output, bind; simpl.
  rewrite get_output_cache_key_run. unfold cache_get. f_equal. f_equal.
  apply Hclear. destruct (cache_output_per_site self).
  - apply list_elem_of_fmap. eexists; split; [reflexivity|].
    unfold listed_site_ids.
    case_bool_decide as Hin; destruct (Hsite eq_refl) as [Hs|Hs];
      rewrite ?Hs; try done.
    + apply elem_of_app; by left.
    + apply elem_of_app; right. by apply list_elem_of_singleton.
  - by apply list_elem_of_singleton.
Qed.

(** ** More on the cached output *)

Lemma get_cached_output_run (self : ContentPlugin) (p : string)
    (i : Instance) (w : World) :
  get_cached_output self p i w =
    (Ok (cache w !! (if cache_output_per_site self
                     then site_key (get_rendering_cache_key p i) (settings_SITE_ID w)
                     else get_rendering_cache_key p i)), w).
Proof.
  unfold get_cached_output, bind; simpl. by rewrite get_output_cache_key_run.
Qed.

Lemma set_cached_output_run (self : ContentPlugin) (p : string)
    (i : Instance) (html : string) (w : World) :
  set_cached_output self p i html w =
    (Ok tt,
     set_cache
       (<[(if cache_output_per_site self
           then site_key (get_rendering_cache_key p i) (settings_SITE_ID w)
           else get_rendering_cache_key p i) := html]> (cache w)) w).
Proof.
  unfold set_cached_output, bind; simpl. by rewrite get_output_cache_key_run.
Qed.

(** With per-site caching, output written under one current site id is
    not what a read under another site id returns: that read returns what
    the cache held for its own site before the write. *)
Theorem per_site_write_invisible_on_other_site (self : ContentPlugin)
    (p : string) (i : Instance) (html : string) (w w' : World) :
  cache_output_per_site self = true ->
  settings_SITE_ID w' <> settings_SITE_ID w ->
  cache w' = cache (snd (set_cached_output self p i html w)) ->
  get_cached_output self p i w'
  = (fst (get_cached_output self p i (set_cache (cache w) w')), w').
Proof.
  intros Hps Hne Hc. rewrite !get_cached_output_run, Hps, Hc.
  rewrite set_cached_output_run, Hps. simpl.
  rewrite lookup_insert_ne; [done|].
  intros E. by apply site_key_inj in E.
Qed.

(** Of two writes for one item, the second is the one that stays: the
    read returns it, and the cache is what the second write alone would
    have left. *)
Theorem last_write_wins (self : ContentPlugin) (p : string) (i : Instance)
    (html1 html2 : string) (w : World) :
  (_ <- set_cached_output self p i html1 ;;
   _ <- set_cached_output self p i html2 ;;
   get_cached_output self p i) w
  = (Ok (Some html2), snd (set_cached_output self p i html2 w)).
Proof.
  unfold bind. rewrite !set_cached_output_run, get_cached_output_run. simpl.
  rewrite lookup_insert_eq. unfold set_cache; simpl.
  by rewrite insert_insert_eq.
Qed.

(** A write for one item leaves the cached output of every item with
    another rendering cache key as it was, with or without per-site
    caching. *)
Theorem write_leaves_other_items (self : ContentPlugin) (p p' : string)
    (i i' : Instance) (html : string) (w : World) :
  get_rendering_cache_key p i <> get_rendering_cache_key p' i' ->
  (_ <- set_cached_output self p i html ;; get_cached_output self p' i') w
  = (fst (get_cached_output self p' i' w),
     snd (set_cached_output self p i html w)).
Proof.
  intros Hne. unfold bind.
  rewrite set_cached_output_run, !get_cached_output_run. simpl.
  rewrite lookup_insert_ne; [done|].
  destruct (cache_output_per_site self); [|done].
  intros E. by apply site_key_inj_both in E as [E _].
Qed.

(** ** More on the content type id *)

(** On a plugin without an id, an exception of the lookup whose class is
    not [DatabaseError] nor derived from it comes out of [type_id] as it
    is; one of [DatabaseError] or of a class derived from it, such as
    [IntegrityError], is replaced by a plain [DatabaseError] that quotes
    its text, when [str] gives that text.  The plugin stays without an
    id. *)
Theorem type_id_other_exception (self : ContentPlugin) (w : World)
    (e : Exception) :
  _type_id self = None ->
  contenttypes w (model self) = Raise e ->
  (isinstance e "DatabaseError" = false ->
     type_id self w = (Raise e, self, w))
  /\ (isinstance e "DatabaseError" = true ->
       forall text, str e w = (Ok text, w) ->
       type_id self w =
         (Raise (DatabaseError
            ("Unable to fetch ContentType object, is a plugin being registered before the initial syncdb? (original error: "
             +:+ text +:+ ")")), self, w)).
Proof.
  intros Hnone E. rewrite (type_id_lookup_raises _ _ _ Hnone E). split.
  - by intros ->.
  - intros -> text Estr. by rewrite Estr.
Qed.

(** Whatever its state, a plugin that has returned an id returns that id
    from then on, in every state of the process; [type_id] leaves the
    state of the process and the other attributes of the plugin alone. *)
Theorem type_id_stable_once_returned (self self' : ContentPlugin)
    (w w' : World) (v : Z) :
  type_id self w = (Ok v, self', w') ->
  w' = w
  /\ _type_id self' = Some v
  /\ (class_name self' = class_name self /\ model self' = model self
      /\ render_template self' = render_template self
      /\ cache_output self' = cache_output self
      /\ cache_output_per_site self' = cache_output_per_site self)
  /\ forall w'', type_id self' w'' = (Ok v, self', w'').
Proof.
  unfold type_id, try_except_DatabaseError, bind,
    ContentType_objects_get_for_model.
  destruct (_type_id self) as [v0|] eqn:Hid.
  - intros [= <- <- <-]. rewrite Hid. by repeat split.
  - destruct (contenttypes w (model self)) as [ct|e] eqn:E; simpl.
    + intros [= <- <- <-]. by repeat split.
    + destruct (isinstance e "DatabaseError"); [|done].
      by destruct (str e w) as [[text|e'] w1].
Qed.

(** ** More on rendering *)

(** An empty template name counts as no template: [render] returns the
    "no rendering defined" message and stops there. *)
Theorem render_empty_template_name `{H : Overridable} (self : ContentPlugin)
    (request : Request) (instance : Instance) (kwargs : gmap string PyValue)
    (w w' : World) :
  self_get_render_template self request instance kwargs w = (Ok (Some ""), w') ->
  render self request instance kwargs w =
    (Ok (catalogue w'
           ("{No rendering defined for class '" +:+ class_name self +:+ "'}")),
     w').
Proof. intros E. by apply (render_falsy_template _ _ _ _ (Some "")). Qed.

(** [render] handles no exception: one raised by [get_render_template]
    comes out of [render], and so does one raised by [get_context] for a
    template that is there; in both cases [render_to_string] is not
    reached, the state is the one the failing method left. *)
Theorem render_lets_exceptions_through `{H : Overridable} (self : ContentPlugin)
    (request : Request) (instance : Instance) (kwargs : gmap string PyValue)
    (e : Exception) (w w1 : World) :
  (self_get_render_template self request instance kwargs w = (Raise e, w1) ->
   render self request instance kwargs w = (Raise e, w1))
  /\ (forall template w2,
        self_get_render_template self request instance kwargs w
          = (Ok (Some template), w1) ->
        template <> "" ->
        self_get_context self request instance kwargs w1 = (Raise e, w2) ->
        render self request instance kwargs w = (Raise e, w2)).
Proof.
  unfold render, bind. split.
  - by intros ->.
  - intros template w2 -> Hne E. destruct template; [done|]. simpl.
    by rewrite E.
Qed.

Lemma PluginContext_update_all_app
    (ps1 ps2 : list (Request -> M (gmap string PyValue))) (request : Request)
    (self : Context) (w : World) :
  PluginContext_update_all (ps1 ++ ps2) request self w
  = (c <- PluginContext_update_all ps1 request self ;;
     PluginContext_update_all ps2 request c) w.
Proof.
  revert self w. induction ps1 as [|p ps1 IH]; intros self w.
  - reflexivity.
  - simpl. unfold bind. destruct (p request w) as [[d|e] w1]; [|done].
    rewrite IH. reflexivity.
Qed.

Lemma PluginContext_update_all_Ok
    (ps : list (Request -> M (gmap string PyValue))) (request : Request)
    (self : Context) (w : World) :
  Forall (fun p => forall w0, exists d w1, p request w0 = (Ok d, w1)) ps ->
  exists ds w',
    PluginContext_update_all ps request self w = (Ok (self ++ ds), w')
    /\ length ds = length ps.
Proof.
  intros Hps. revert self w.
  induction Hps as [|p ps Hp _ IH]; intros self w.
  - exists [], w. by rewrite app_nil_r.
  - destruct (Hp w) as (d & w1 & Ed). simpl. unfold bind. rewrite Ed.
    destruct (IH (Context_update self d) w1) as (ds & w' & E & Hlen).
    exists (d :: ds), w'. unfold Context_update in E.
    rewrite <- app_assoc in E. split; [exact E|]. simpl. by rewrite Hlen.
Qed.

(** When the processors of Django return, [PluginContext] returns a
    stack with the dict of the builtins at the bottom, the given dict
    above it when there is one, then one dict per processor, and on top
    the dict of [_add_debug], which holds [settings.DEBUG] as it is once
    the processors have run. *)
Theorem PluginContext_stack (request : Request)
    (dict : option (gmap string PyValue)) (w : World) :
  Forall (fun p => forall w0, exists d w1, p request w0 = (Ok d, w1))
    django_context_processors ->
  exists context w',
    PluginContext request dict w = (Ok context, w')
    /\ length context
       = (length django_context_processors
          + match dict with Some _ => 3 | None => 2 end)%nat
    /\ head context = Some Context_builtins
    /\ (forall d, dict = Some d -> context !! 1%nat = Some d)
    /\ last context = Some {[ "debug" := PyBool (settings_DEBUG w') ]}.
Proof.
  intros Hps. unfold PluginContext, _STANDARD_REQUEST_CONTEXT_PROCESSORS.
  destruct (PluginContext_update_all_Ok _ request (Context___init__ dict) w Hps)
    as (ds & w' & E & Hlen).
  exists ((Context___init__ dict ++ ds)
          ++ [{[ "debug" := PyBool (settings_DEBUG w') ]}]), w'.
  split; [|split; [|split; [|split]]].
  - rewrite PluginContext_update_all_app. unfold bind at 1. by rewrite E.
  - rewrite !length_app, Hlen. destruct dict; simpl; lia.
  - by destruct dict.
  - by intros d ->.
  - apply last_snoc.
Qed.

(** When a processor raises, after the ones before it have returned,
    [render_to_string] called without a context instance raises that
    exception and the template loader is not called; called with a context
    instance it runs no processor and goes to the template loader. *)
Theorem render_to_string_processor_failure (self : ContentPlugin)
    (request : Request) (template : string) (context : gmap string PyValue)
    (before after : list (Request -> M (gmap string PyValue)))
    (p : Request -> M (gmap string PyValue)) (stack : Context)
    (e : Exception) (w w1 w2 : World) :
  django_context_processors = before ++ p :: after ->
  PluginContext_update_all before request (Context___init__ None) w
    = (Ok stack, w1) ->
  p request w1 = (Raise e, w2) ->
  render_to_string self request template context None w = (Raise e, w2)
  /\ forall content_instance,
       render_to_string self request template context (Some content_instance) w
       = (template_engine w template context content_instance,
          log_template_call
            {| call_template := template;
               call_dictionary := context;
               call_context_instance := content_instance |} w).
Proof.
  intros Hps Ebefore Ep. split; [|done].
  unfold render_to_string, PluginContext, _STANDARD_REQUEST_CONTEXT_PROCESSORS.
  rewrite Hps. unfold bind at 1.
  rewrite <- app_assoc, PluginContext_update_all_app. unfold bind at 1.
  rewrite Ebefore. simpl. unfold bind at 1. by rewrite Ep.
Qed.

(** With a template, the base class calls the template loader once, with
    the template, the dict that binds ["instance"] and the context
    [PluginContext] built; what the template engine answers, a string or
    an exception, is what [render] and [_render_contentitem] give. *)
Theorem render_calls_loader_once (self : ContentPlugin) (request : Request)
    (instance : Instance) (kwargs : gmap string PyValue) (template : string)
    (context_instance : Context) (w w1 : World) :
  render_template self = Some template ->
  template <> "" ->
  PluginContext request None w = (Ok context_instance, w1) ->
  exists w2,
    render (H := ContentPlugin_methods) self request instance kwargs w
    = (template_engine w1 template {[ "instance" := PyInstance instance ]}
         context_instance, w2)
    /\ template_calls w2
       = template_calls w1
         ++ [{| call_template := template;
                call_dictionary := {[ "instance" := PyInstance instance ]};
                call_context_instance := context_instance |}]
    /\ _render_contentitem (render (H := ContentPlugin_methods)) self request
         instance w
       = render (H := ContentPlugin_methods) self request instance kwargs w.
Proof.
  intros E Hne Ec. eexists. split; [|split].
  - rewrite (render_base_with_template _ _ _ _ template w E Hne _ _ Ec).
    reflexivity.
  - reflexivity.
  - unfold _render_contentitem.
    by rewrite !(render_base_with_template _ _ _ _ template w E Hne _ _ Ec).
Qed.

(** ** More on the error block *)

(** An error whose text [str] returns, when that text is UTF-8 and has
    no ampersand, angle bracket, quote or line end, is shown as it is, in
    one paragraph. *)
Theorem render_error_plain_message (self : ContentPlugin) (error : Exception)
    (text : string) (w : World) :
  str error w = (Ok text, w) ->
  utf8_valid text = true ->
  occurs "&" text = false -> occurs "<" text = false ->
  occurs ">" text = false -> occurs DQUOTE text = false ->
  occurs "'" text = false ->
  occurs LF text = false -> occurs CR text = false ->
  render_error self error w =
    (Ok ("<div style=" +:+ String DQUOTE "color: red; border: 1px solid red; padding: 5px;"
         +:+ String DQUOTE ">"
         +:+ "<p><strong>" +:+ catalogue w "Error:" +:+ "</strong></p>"
         +:+ "<p>" +:+ text +:+ "</p>" +:+ "</div>"), w).
Proof.
  intros Estr Hvalid Hamp Hlt Hgt Hdq Hsq HLF HCR.
  assert (Hesc : escape_unicode text = text).
  { unfold escape_unicode. rewrite (replace_absent "&") by done.
    rewrite (replace_absent "<") by done. rewrite (replace_absent ">") by done.
    rewrite (replace_absent DQUOTE) by done. by rewrite replace_absent. }
  rewrite (render_error_run _ _ _ _ Estr Hvalid).
  rewrite Hesc, linebreaks_one_line by done.
  by rewrite !append_assoc.
Qed.

End ContentPlugin.

(** ** The theorems at work on a small site *)

(** Content items are known by their primary key, model classes by their
    name; the rendering cache key is the one the package builds. *)
Definition demo_rendering_cache_key (placeholder_name : string) (pk : Z) : string :=
  "contentitem.@" +:+ placeholder_name +:+ ".Article." +:+ pretty pk.

(** Exceptions of classes of Python and Django, with the classes they
    derive from. *)
Definition ValueError (message : Message) : Exception :=
  {| exc_class := "ValueError";
     exc_bases := ["StandardError"; "Exception"; "BaseException"];
     exc_message := message |}.

Definition KeyError (msg : string) : Exception :=
  {| exc_class := "KeyError";
     exc_bases := ["LookupError"; "StandardError"; "Exception"; "BaseException"];
     exc_message := Bytes msg |}.

Definition AttributeError (msg : string) : Exception :=
  {| exc_class := "AttributeError";
     exc_bases := ["StandardError"; "Exception"; "BaseException"];
     exc_message := Bytes msg |}.

Definition ImproperlyConfigured (msg : string) : Exception :=
  {| exc_class := "ImproperlyConfigured";
     exc_bases := ["Exception"; "BaseException"];
     exc_message := Bytes msg |}.

Definition TemplateDoesNotExist (msg : string) : Exception :=
  {| exc_class := "TemplateDoesNotExist";
     exc_bases := ["Exception"; "BaseException"];
     exc_message := Bytes msg |}.

Definition IntegrityError (msg : string) : Exception :=
  {| exc_class := "IntegrityError";
     exc_bases := ["DatabaseError"; "Exception"; "BaseException"];
     exc_message := Bytes msg |}.

(** The texts of the codec errors the examples meet: for [u'\xe9'] and
    for the byte 255. *)
Definition demo_encode_error_text (u : list N) : string :=
  "'ascii' codec can't encode character u'\xe9' in position 0: ordinal not in range(128)".

Definition demo_decode_error_text (b : string) : string :=
  "'utf8' codec can't decode byte 0xff in position 0: invalid start byte. You passed in '\xff' (<type 'str'>)".

Definition demo_contenttypes (model : option string) : Res ContentType :=
  if decide (model = Some "Article") then Ok {| id := 12 |}
  else Raise (DatabaseError "no such table: django_content_type").

(** Two sites in the table, a third one configured as the current site. *)
Definition demo_world : @World string Z unit :=
  {| settings_SITE_ID := 3;
     settings_DEBUG := false;
     Site_pks := [1; 2];
     cache := ∅;
     catalogue := fun message => message;
     contenttypes := demo_contenttypes;
     template_engine := fun template _ _ => Ok ("<div>" +:+ template +:+ "</div>");
     template_calls := [];
     encode_error_text := demo_encode_error_text;
     decode_error_text := demo_decode_error_text |}.

(** The same with the current site in the table. *)
Definition demo_world_site_1 : @World string Z unit :=
  {| settings_SITE_ID := 1;
     settings_DEBUG := false;
     Site_pks := [1; 2];
     cache := ∅;
     catalogue := fun message => message;
     contenttypes := demo_contenttypes;
     template_engine := fun template _ _ => Ok ("<div>" +:+ template +:+ "</div>");
     template_calls := [];
     encode_error_text := demo_encode_error_text;
     decode_error_text := demo_decode_error_text |}.

Definition demo_plugin (per_site : bool) (model : option string) : @ContentPlugin string :=
  __init__
    {| class_name := "ArticlePlugin";
       model := model;
       render_template := None;
       cache_output := true;
       cache_output_per_site := per_site;
       _type_id := None |}.

Definition demo_methods : @Overridable string Z unit :=
  ContentPlugin_methods demo_rendering_cache_key [].

Lemma get_output_cache_keys_listing_witness :
  get_output_cache_keys (H := demo_methods) demo_rendering_cache_key
    (demo_plugin false None) "main" 7 demo_world
    = (Ok ["contentitem.@main.Article.7"], demo_world)
  /\ exists keys,
       get_output_cache_keys (H := demo_methods) demo_rendering_cache_key
         (demo_plugin true None) "main" 7 demo_world = (Ok keys, demo_world)
       /\ length keys = 3%nat
       /\ exists keys',
            get_output_cache_keys (H := demo_methods) demo_rendering_cache_key
              (demo_plugin true None) "main" 7 demo_world_site_1
              = (Ok keys', demo_world_site_1)
            /\ length keys' = 2%nat.
Proof.
  split.
  - exact (proj1 (get_output_cache_keys_listing demo_rendering_cache_key []
                    (demo_plugin false None) "main" 7 demo_world) eq_refl).
  - destruct (proj2 (get_output_cache_keys_listing demo_rendering_cache_key []
                       (demo_plugin true None) "main" 7 demo_world) eq_refl)
      as (keys & E & _ & Hnew).
    exists keys. split; [exact E|].
    assert (Hout : (3 : Z) ∉ [1; 2]) by (by apply (bool_decide_unpack _)).
    split; [exact (proj2 (Hnew Hout))|].
    destruct (proj2 (get_output_cache_keys_listing demo_rendering_cache_key []
                       (demo_plugin true None) "main" 7 demo_world_site_1) eq_refl)
      as (keys' & E' & Hknown & _).
    exists keys'. split; [exact E'|].
    assert (Hin : (1 : Z) ∈ [1; 2]) by (by apply (bool_decide_unpack _)).
    exact (proj2 (Hknown Hin)).
Defined.

Example demo_keys_per_site :
  get_output_cache_keys (H := demo_methods) demo_rendering_cache_key
    (demo_plugin true None) "main" 7 demo_world
  = (Ok ["contentitem.@main.Article.7-s1"; "contentitem.@main.Article.7-s2";
         "contentitem.@main.Article.7-s3"], demo_world).
Proof. vm_compute. reflexivity. Qed.

Example demo_keys_per_site_known :
  get_output_cache_keys (H := demo_methods) demo_rendering_cache_key
    (demo_plugin true None) "main" 7 demo_world_site_1
  = (Ok ["contentitem.@main.Article.7-s1"; "contentitem.@main.Article.7-s2"],
     demo_world_site_1).
Proof. vm_compute. reflexivity. Qed.

Lemma per_site_keys_distinguish_sites_witness :
  exists k1 k2,
    get_output_cache_key demo_rendering_cache_key (demo_plugin true None)
      "main" 7 demo_world = (Ok k1, demo_world)
    /\ get_output_cache_key demo_rendering_cache_key (demo_plugin true None)
         "main" 7 demo_world_site_1 = (Ok k2, demo_world_site_1)
    /\ k1 <> k2.
Proof.
  destruct (per_site_keys_distinguish_sites demo_rendering_cache_key
              (demo_plugin true None) "main" 7 demo_world demo_world_site_1
              eq_refl) as (k1 & k2 & E1 & E2 & _ & Hne & _).
  exists k1, k2. split; [exact E1|]. split; [exact E2|].
  apply Hne. discriminate.
Defined.

(** The state of [demo_world_site_1] once the cache holds what a write
    under site 3 left. *)
Definition demo_world_after_write : @World string Z unit :=
  set_cache
    (cache (snd (set_cached_output (H := demo_methods) (demo_plugin false None)
                   "main" 7 "<p>Hello</p>" demo_world)))
    demo_world_site_1.

Lemma shared_key_across_sites_witness :
  fst (get_output_cache_key demo_rendering_cache_key (demo_plugin false None)
         "main" 7 demo_world)
  = fst (get_output_cache_key demo_rendering_cache_key (demo_plugin false None)
           "main" 7 demo_world_after_write)
  /\ get_cached_output (H := demo_methods) (demo_plugin false None) "main" 7
       demo_world_after_write
     = (Ok (Some "<p>Hello</p>"), demo_world_after_write).
Proof.
  destruct (shared_key_across_sites demo_rendering_cache_key []
              (demo_plugin false None) "main" 7 "<p>Hello</p>"
              demo_world demo_world_after_write eq_refl) as [Hkey Hread].
  split; [exact Hkey|]. apply Hread. reflexivity.
Defined.

Lemma get_output_cache_key_pure_witness :
  exists key,
    get_output_cache_key demo_rendering_cache_key (demo_plugin true None)
      "main" 7 demo_world = (Ok key, demo_world)
    /\ get_output_cache_key demo_rendering_cache_key (demo_plugin true None)
         "main" 7 (set_cache {[ "other" := "entry" ]} demo_world)
       = (Ok key, set_cache {[ "other" := "entry" ]} demo_world).
Proof.
  destruct (get_output_cache_key_pure demo_rendering_cache_key
              (demo_plugin true None) "main" 7 demo_world)
    as (key & E & _ & Hsame).
  exists key. split; [exact E|]. apply Hsame. reflexivity.
Defined.

Lemma cached_output_round_trip_witness :
  exists key,
    bind
      (set_cached_output (H := demo_methods) (demo_plugin true None)
         "main" 7 "<p>Hello</p>")
      (fun _ => get_cached_output (H := demo_methods) (demo_plugin true None)
                  "main" 7)
      demo_world
    = (Ok (Some "<p>Hello</p>"),
       set_cache (<[key := "<p>Hello</p>"]> (cache demo_world)) demo_world)
    /\ get_cached_output (H := demo_methods) (demo_plugin true None) "main" 7
         demo_world = (Ok (cache demo_world !! key), demo_world).
Proof.
  destruct (cached_output_round_trip demo_rendering_cache_key []
              (demo_plugin true None) "main" 7 "<p>Hello</p>" demo_world)
    as (key & _ & _ & Hround & Hread).
  exists key. split; [exact Hround|]. apply Hread. reflexivity.
Defined.

Example demo_read_before_write :
  get_cached_output (H := demo_methods) (demo_plugin true None) "main" 7
    demo_world = (Ok None, demo_world).
Proof. vm_compute. reflexivity. Qed.

Lemma get_context_default_witness :
  exists context : gmap string (@PyValue Z unit),
    get_context (demo_plugin false None) tt 7 ∅ demo_world
      = (Ok context, demo_world)
    /\ context !! "instance" = Some (PyInstance 7)
    /\ context !! "request" = None.
Proof.
  destruct (get_context_default (demo_plugin false None) tt 7 ∅ demo_world)
    as (context & E & Hinstance & Hother & _).
  exists context. split; [exact E|]. split; [exact Hinstance|].
  apply Hother. discriminate.
Defined.

Lemma render_without_template_witness :
  render (H := demo_methods) (demo_plugin false None) tt 7 ∅ demo_world
  = (Ok "{No rendering defined for class 'ArticlePlugin'}", demo_world)
  /\ template_calls
       (snd (render (H := demo_methods) (demo_plugin false None) tt 7 ∅
               demo_world)) = [].
Proof.
  exact (render_without_template (H := demo_methods) (demo_plugin false None)
           tt 7 ∅ demo_world demo_world eq_refl).
Defined.

Lemma type_id_memoised_witness :
  type_id (demo_plugin false None) demo_world
  = (Raise (DatabaseError
       "Unable to fetch ContentType object, is a plugin being registered before the initial syncdb? (original error: no such table: django_content_type)"),
     demo_plugin false None, demo_world)
  /\ type_id (demo_plugin false (Some "Article")) demo_world
     = (Ok 12, set__type_id (Some 12) (demo_plugin false (Some "Article")),
        demo_world)
  /\ type_id (set__type_id (Some 12) (demo_plugin false (Some "Article")))
       (set_cache {[ "other" := "entry" ]} demo_world_site_1)
     = (Ok 12, set__type_id (Some 12) (demo_plugin false (Some "Article")),
        set_cache {[ "other" := "entry" ]} demo_world_site_1).
Proof.
  split; [|split].
  - exact (proj1 (type_id_memoised (demo_plugin false None) demo_world eq_refl)
             "no such table: django_content_type" eq_refl).
  - exact (proj1 (proj2 (proj2 (type_id_memoised
             (demo_plugin false (Some "Article")) demo_world eq_refl))
             {| id := 12 |} eq_refl)).
  - exact (proj2 (proj2 (proj2 (proj2 (type_id_memoised
             (demo_plugin false (Some "Article")) demo_world eq_refl))
             {| id := 12 |} eq_refl)) _).
Defined.

Lemma render_error_raises_on_non_ascii_witness :
  render_error (demo_plugin false None) (ValueError (Unicode [233%N]))
    demo_world
  = (Raise (UnicodeEncodeError
       "'ascii' codec can't encode character u'\xe9' in position 0: ordinal not in range(128)"),
     demo_world)
  /\ render_error (demo_plugin false None)
       (ValueError (Bytes (String (ascii_of_nat 255) ""))) demo_world
     = (Raise (DjangoUnicodeDecodeError
          "'utf8' codec can't decode byte 0xff in position 0: invalid start byte. You passed in '\xff' (<type 'str'>)"),
        demo_world).
Proof.
  split.
  - exact (proj1 (render_error_raises_on_non_ascii (demo_plugin false None)
                    (ValueError (Unicode [233%N])) demo_world)
             [233%N] eq_refl eq_refl).
  - exact (proj2 (render_error_raises_on_non_ascii (demo_plugin false None)
                    (ValueError (Bytes (String (ascii_of_nat 255) "")))
                    demo_world)
             (String (ascii_of_nat 255) "") eq_refl eq_refl).
Defined.

Lemma render_error_escaped_witness :
  escape_unicode "<script>alert(1)</script>"
  = escape_unicode "" +:+ "&lt;script&gt;" +:+ escape_unicode "alert(1)</script>"
  /\ linebreaks (escape_unicode "<script>alert(1)</script>")
     = "<p>" +:+ escape_unicode "<script>alert(1)</script>" +:+ "</p>".
Proof.
  destruct (render_error_escaped (demo_plugin false None)
              (ValueError (Bytes "<script>alert(1)</script>"))
              "<script>alert(1)</script>" demo_world eq_refl eq_refl)
    as (_ & _ & _ & Hscript & Hline).
  split; [exact (Hscript "" "alert(1)</script>" eq_refl)|].
  apply Hline; reflexivity.
Defined.

Example demo_render_error :
  render_error (demo_plugin false None)
    (ValueError (Bytes "<script>alert(1)</script>")) demo_world
  = (Ok ("<div style=" +:+ String DQUOTE "color: red; border: 1px solid red; padding: 5px;"
         +:+ String DQUOTE ">"
         +:+ "<p><strong>Error:</strong></p><p>&lt;script&gt;alert(1)&lt;/script&gt;</p></div>"),
     demo_world).
Proof. vm_compute. reflexivity. Qed.

(** A unicode argument of ASCII code points, and a byte string that is
    the UTF-8 encoding of [u'\xe9'], are rendered. *)
Example demo_render_error_ascii_unicode :
  render_error (demo_plugin false None)
    (ValueError (Unicode [60; 98; 62]%N)) demo_world
  = (Ok ("<div style=" +:+ String DQUOTE "color: red; border: 1px solid red; padding: 5px;"
         +:+ String DQUOTE ">"
         +:+ "<p><strong>Error:</strong></p><p>&lt;b&gt;</p></div>"),
     demo_world).
Proof. vm_compute. reflexivity. Qed.

Example demo_render_error_utf8_bytes :
  render_error (demo_plugin false None)
    (ValueError (Bytes (String (ascii_of_nat 195) (String (ascii_of_nat 169) ""))))
    demo_world
  = (Ok ("<div style=" +:+ String DQUOTE "color: red; border: 1px solid red; padding: 5px;"
         +:+ String DQUOTE ">"
         +:+ "<p><strong>Error:</strong></p><p>"
         +:+ String (ascii_of_nat 195) (String (ascii_of_nat 169) "</p></div>")),
     demo_world).
Proof. vm_compute. reflexivity. Qed.

Example demo_utf8_valid :
  utf8_valid (String (ascii_of_nat 226) (String (ascii_of_nat 130)
                (String (ascii_of_nat 172) ""))) = true
  /\ utf8_valid (String (ascii_of_nat 192) (String (ascii_of_nat 128) "")) = false
  /\ utf8_valid (String (ascii_of_nat 195) "") = false
  /\ utf8_valid (String (ascii_of_nat 128) "") = false.
Proof. repeat split; reflexivity. Qed.

Example demo_linebreaks :
  linebreaks (String "a" (String CR (String LF (String "b"
                (String LF (String LF (String LF "c")))))))
  = "<p>a<br />b</p>" +:+ String LF (String LF "<p>c</p>").
Proof. vm_compute. reflexivity. Qed.

Example demo_split_trailing :
  split_paras (String "a" (String LF (String LF ""))) = ["a"; ""].
Proof. reflexivity. Qed.

(** ** More of the small site *)

Lemma per_site_key_determines_item_and_site_witness :
  demo_rendering_cache_key "main" 7 = demo_rendering_cache_key "main" 7
  /\ settings_SITE_ID demo_world = settings_SITE_ID (set_cache {[ "other" := "entry" ]} demo_world).
Proof.
  apply (per_site_key_determines_item_and_site demo_rendering_cache_key
           (demo_plugin true None) "main" "main" 7 7 demo_world
           (set_cache {[ "other" := "entry" ]} demo_world)
           "contentitem.@main.Article.7-s3");
    [reflexivity|vm_compute; reflexivity|vm_compute; reflexivity].
Defined.

Lemma get_output_cache_keys_NoDup_witness :
  NoDup ["contentitem.@main.Article.7-s1"; "contentitem.@main.Article.7-s2";
         "contentitem.@main.Article.7-s3"].
Proof.
  apply (get_output_cache_keys_NoDup demo_rendering_cache_key []
           (demo_plugin true None) "main" 7 demo_world).
  - by apply (bool_decide_unpack _).
  - vm_compute. reflexivity.
Defined.

Lemma listed_keys_are_those_of_listed_sites_witness :
  exists keys key',
    get_output_cache_keys (H := demo_methods) demo_rendering_cache_key
      (demo_plugin true None) "main" 7 demo_world = (Ok keys, demo_world)
    /\ get_output_cache_key demo_rendering_cache_key (demo_plugin true None)
         "main" 7 demo_world_site_1 = (Ok key', demo_world_site_1)
    /\ key' ∈ keys.
Proof.
  destruct (listed_keys_are_those_of_listed_sites demo_rendering_cache_key []
              (demo_plugin true None) "main" 7 demo_world demo_world_site_1
              eq_refl) as (keys & key' & E & E' & Hiff).
  exists keys, key'. split; [exact E|]. split; [exact E'|].
  apply Hiff. left. by apply (bool_decide_unpack _).
Defined.

Lemma cleared_keys_give_miss_witness :
  get_cached_output (H := demo_methods) (demo_plugin true None) "main" 7
    demo_world_site_1 = (Ok None, demo_world_site_1).
Proof.
  apply (cleared_keys_give_miss demo_rendering_cache_key []
           (demo_plugin true None) "main" 7 demo_world demo_world_site_1
           ["contentitem.@main.Article.7-s1"; "contentitem.@main.Article.7-s2";
            "contentitem.@main.Article.7-s3"]).
  - vm_compute. reflexivity.
  - intros _. left. by apply (bool_decide_unpack _).
  - intros key _. reflexivity.
Defined.

(** The state of [demo_world_site_1] once the cache holds what a write of
    a per-site plugin under site 3 left. *)
Definition demo_world_after_per_site_write : @World string Z unit :=
  set_cache
    (cache (snd (set_cached_output (H := demo_methods) (demo_plugin true None)
                   "main" 7 "<p>Hello</p>" demo_world)))
    demo_world_site_1.

Lemma per_site_write_invisible_on_other_site_witness :
  get_cached_output (H := demo_methods) (demo_plugin true None) "main" 7
    demo_world_after_per_site_write
  = (Ok None, demo_world_after_per_site_write).
Proof.
  etrans;
    [apply (per_site_write_invisible_on_other_site demo_rendering_cache_key []
              (demo_plugin true None) "main" 7 "<p>Hello</p>" demo_world
              demo_world_after_per_site_write eq_refl);
       [discriminate|reflexivity]
    |reflexivity].
Defined.

Lemma last_write_wins_witness :
  bind (set_cached_output (H := demo_methods) (demo_plugin true None)
          "main" 7 "<p>old</p>")
    (fun _ =>
       bind (set_cached_output (H := demo_methods) (demo_plugin true None)
               "main" 7 "<p>new</p>")
         (fun _ => get_cached_output (H := demo_methods)
                     (demo_plugin true None) "main" 7))
    demo_world
  = (Ok (Some "<p>new</p>"),
     set_cache {[ "contentitem.@main.Article.7-s3" := "<p>new</p>" ]} demo_world).
Proof.
  etrans; [apply (last_write_wins demo_rendering_cache_key [])|].
  vm_compute. reflexivity.
Defined.

Lemma write_leaves_other_items_witness :
  bind (set_cached_output (H := demo_methods) (demo_plugin true None)
          "main" 7 "<p>Hello</p>")
    (fun _ => get_cached_output (H := demo_methods) (demo_plugin true None)
                "main" 8)
    demo_world
  = (Ok None,
     snd (set_cached_output (H := demo_methods) (demo_plugin true None)
            "main" 7 "<p>Hello</p>" demo_world)).
Proof.
  apply (write_leaves_other_items demo_rendering_cache_key []
           (demo_plugin true None) "main" "main" 7 8 "<p>Hello</p>" demo_world).
  vm_compute. discriminate.
Defined.

(** A state in which the content type manager fails on the model class. *)
Definition demo_world_no_model : @World string Z unit :=
  {| settings_SITE_ID := 3;
     settings_DEBUG := true;
     Site_pks := [1; 2];
     cache := ∅;
     catalogue := fun message => message;
     contenttypes := fun model =>
       if decide (model = None)
       then Raise (AttributeError "'NoneType' object has no attribute '_meta'")
       else Raise (IntegrityError "duplicate key value");
     template_engine := fun template _ _ =>
       Raise (TemplateDoesNotExist template);
     template_calls := [];
     encode_error_text := demo_encode_error_text;
     decode_error_text := demo_decode_error_text |}.

Lemma type_id_other_exception_witness :
  type_id (demo_plugin false None) demo_world_no_model
  = (Raise (AttributeError "'NoneType' object has no attribute '_meta'"),
     demo_plugin false None, demo_world_no_model)
  /\ type_id (demo_plugin false (Some "Article")) demo_world_no_model
     = (Raise (DatabaseError
          "Unable to fetch ContentType object, is a plugin being registered before the initial syncdb? (original error: duplicate key value)"),
        demo_plugin false (Some "Article"), demo_world_no_model).
Proof.
  split.
  - exact (proj1 (type_id_other_exception (demo_plugin false None)
                    demo_world_no_model
                    (AttributeError "'NoneType' object has no attribute '_meta'")
                    eq_refl eq_refl) eq_refl).
  - exact (proj2 (type_id_other_exception (demo_plugin false (Some "Article"))
                    demo_world_no_model (IntegrityError "duplicate key value")
                    eq_refl eq_refl) eq_refl "duplicate key value" eq_refl).
Defined.

Lemma type_id_stable_once_returned_witness :
  type_id (set__type_id (Some 12) (demo_plugin false (Some "Article")))
    demo_world_no_model
  = (Ok 12, set__type_id (Some 12) (demo_plugin false (Some "Article")),
     demo_world_no_model).
Proof.
  exact (proj2 (proj2 (proj2 (type_id_stable_once_returned
           (demo_plugin false (Some "Article"))
           (set__type_id (Some 12) (demo_plugin false (Some "Article")))
           demo_world demo_world 12 eq_refl))) demo_world_no_model).
Defined.

(** A plugin class whose [get_render_template] answers with an empty
    name, and one whose [get_context] fails. *)
Definition demo_methods_empty_name : @Overridable string Z unit :=
  {| self_get_output_cache_key := get_output_cache_key demo_rendering_cache_key;
     self_get_render_template := fun _ _ _ _ => ret (Some "");
     self_get_context := get_context;
     self_render_to_string := render_to_string [] |}.

Definition demo_methods_failing_context : @Overridable string Z unit :=
  {| self_get_output_cache_key := get_output_cache_key demo_rendering_cache_key;
     self_get_render_template := fun _ _ _ _ => ret (Some "plugins/article.html");
     self_get_context := fun _ _ _ _ =>
       raise (KeyError "'author'");
     self_render_to_string := render_to_string [] |}.

Lemma render_empty_template_name_witness :
  render (H := demo_methods_empty_name) (demo_plugin false None) tt 7 ∅
    demo_world
  = (Ok "{No rendering defined for class 'ArticlePlugin'}", demo_world).
Proof.
  exact (render_empty_template_name (H := demo_methods_empty_name)
           (demo_plugin false None) tt 7 ∅ demo_world demo_world eq_refl).
Defined.

Lemma render_lets_exceptions_through_witness :
  render (H := demo_methods_failing_context) (demo_plugin false None) tt 7 ∅
    demo_world
  = (Raise (KeyError "'author'"), demo_world).
Proof.
  apply (proj2 (render_lets_exceptions_through
                  (H := demo_methods_failing_context) (demo_plugin false None)
                  tt 7 ∅ (KeyError "'author'")
                  demo_world demo_world) "plugins/article.html" demo_world);
    [reflexivity|discriminate|reflexivity].
Defined.

(** A processor that returns, and one that raises. *)
Definition demo_request_processor (request : unit)
    : @M string Z unit (gmap string (@PyValue Z unit)) :=
  ret {[ "request" := PyRequest request ]}.

Definition demo_failing_processor (request : unit)
    : @M string Z unit (gmap string (@PyValue Z unit)) :=
  raise (ImproperlyConfigured "MEDIA_URL").

Lemma PluginContext_stack_witness :
  exists context w',
    PluginContext [demo_request_processor] tt (Some {[ "page" := PyInt 4 ]})
      demo_world_no_model = (Ok context, w')
    /\ length context = 4%nat
    /\ head context = Some Context_builtins
    /\ context !! 1%nat = Some {[ "page" := PyInt 4 ]}
    /\ last context = Some {[ "debug" := PyBool true ]}.
Proof.
  destruct (PluginContext_stack [demo_request_processor] tt
              (Some {[ "page" := PyInt 4 ]}) demo_world_no_model)
    as (context & w' & E & Hlen & Hhead & Hdict & Hlast).
  - constructor; [|constructor]. intros w0.
    by exists {[ "request" := PyRequest tt ]}, w0.
  - exists context, w'. split; [exact E|]. split; [exact Hlen|].
    split; [exact Hhead|]. split; [exact (Hdict _ eq_refl)|].
    rewrite Hlast. vm_compute in E. by injection E as _ <-.
Defined.

Example demo_PluginContext :
  PluginContext [demo_request_processor] tt None demo_world
  = (Ok [Context_builtins; {[ "request" := PyRequest tt ]};
         {[ "debug" := PyBool false ]}], demo_world).
Proof. reflexivity. Qed.

Lemma render_to_string_processor_failure_witness :
  render_to_string [demo_request_processor; demo_failing_processor]
    (demo_plugin false None) tt "plugins/article.html" ∅ None demo_world
  = (Raise (ImproperlyConfigured "MEDIA_URL"), demo_world)
  /\ render_to_string [demo_request_processor; demo_failing_processor]
       (demo_plugin false None) tt "plugins/article.html" ∅ (Some [])
       demo_world
     = (Ok "<div>plugins/article.html</div>",
        log_template_call
          {| call_template := "plugins/article.html";
             call_dictionary := ∅;
             call_context_instance := [] |} demo_world).
Proof.
  destruct (render_to_string_processor_failure
              [demo_request_processor; demo_failing_processor]
              (demo_plugin false None) tt "plugins/article.html" ∅
              [demo_request_processor] [] demo_failing_processor
              [Context_builtins; {[ "request" := PyRequest tt ]}]
              (ImproperlyConfigured "MEDIA_URL")
              demo_world demo_world demo_world eq_refl eq_refl eq_refl)
    as [Hnone Hsome].
  split; [exact Hnone|exact (Hsome [])].
Defined.

Definition demo_plugin_with_template : @ContentPlugin string :=
  __init__
    {| class_name := "ArticlePlugin";
       model := Some "Article";
       render_template := Some "plugins/article.html";
       cache_output := true;
       cache_output_per_site := false;
       _type_id := None |}.

Lemma render_calls_loader_once_witness :
  exists w2,
    render (H := demo_methods) demo_plugin_with_template tt 7 ∅ demo_world
    = (Ok "<div>plugins/article.html</div>", w2)
    /\ template_calls w2
       = [{| call_template := "plugins/article.html";
             call_dictionary := {[ "instance" := PyInstance 7 ]};
             call_context_instance :=
               [Context_builtins; {[ "debug" := PyBool false ]}] |}].
Proof.
  destruct (render_calls_loader_once demo_rendering_cache_key []
              demo_plugin_with_template tt 7 ∅ "plugins/article.html"
              [Context_builtins; {[ "debug" := PyBool false ]}]
              demo_world demo_world
              eq_refl) as (w2 & E & Hcalls & _);
    [discriminate|reflexivity|].
  exists w2. split; [exact E|exact Hcalls].
Defined.

Lemma render_error_plain_message_witness :
  render_error (demo_plugin false None)
    (ValueError (Bytes "invalid literal for int()")) demo_world
  = (Ok ("<div style=" +:+ String DQUOTE "color: red; border: 1px solid red; padding: 5px;"
         +:+ String DQUOTE ">"
         +:+ "<p><strong>Error:</strong></p><p>invalid literal for int()</p></div>"),
     demo_world).
Proof.
  etrans;
    [apply (render_error_plain_message (demo_plugin false None)
              (ValueError (Bytes "invalid literal for int()"))
              "invalid literal for int()" demo_world); reflexivity
    |reflexivity].
Defined.
